(** * ActiveLearn Hub: validators, gamification, nudges and project progress

    A shallow embedding of the pure functions that the repository's test
    files define next to their tests, and the properties of the
    specification proved about them.

    Conventions of the embedding.
    - A JavaScript [number] is an exact rational ([Q]); arithmetic is
      exact.  The values NaN and the infinities are not numbers of the
      model; where the source would compute with [undefined] (an array
      read out of range) the model returns [None].
    - A JavaScript string is a [string]: a sequence of one-byte code
      units.
    - A number that the code uses as an integer only (a loop counter, an
      array index, a count, the result of [Math.round] or [Math.floor])
      is a [Z].
    - A value that may be [null] or [undefined] has type [js A].
    - Code that can raise returns a [completion].
    - An object literal used as a table is a finite map of its own
      properties. *)

From Stdlib Require Import QArith Qround Lqa ZArith Lia Ascii.
From stdpp Require Import gmap strings list fin_maps.

(** ** JavaScript values and built-ins *)

Module JS.

(** A value of type [A | null | undefined]. *)
Inductive js (A : Type) : Type :=
| null : js A
| undefined : js A
| val (a : A) : js A.
Arguments null {A}.
Arguments undefined {A}.
Arguments val {A} a.

(** Abrupt and normal completion of a call. *)
Inductive error : Type := TypeError.

Inductive completion (A : Type) : Type :=
| normal (a : A) : completion A
| throw (e : error) : completion A.
Arguments normal {A} a.
Arguments throw {A} e.

#[global] Instance completion_ret : MRet completion := @normal.
#[global] Instance completion_bind : MBind completion :=
  fun A B f m => match m with normal a => f a | throw e => throw e end.

(** [try { body } catch { handler }]. *)
Definition try_catch {A : Type} (body handler : completion A) : completion A :=
  match body with
  | normal a => normal a
  | throw _ => handler
  end.

(** [a || b] on booleans: [b] is evaluated only when [a] is false. *)
Definition or_else (a b : completion bool) : completion bool :=
  x ← a; if x : bool then normal true else b.

(** [o.f] and [o.m()] evaluate the receiver [o] first: a [null] or
    [undefined] receiver raises a TypeError. *)
Definition receiver {A : Type} (o : js A) : completion A :=
  match o with
  | val a => normal a
  | null | undefined => throw TypeError
  end.

(** The conversion of an argument to a string. *)
Definition to_string (v : js string) : string :=
  match v with
  | val s => s
  | null => "null"
  | undefined => "undefined"
  end.

(** [!v] for a string: [null], [undefined] and the empty string are falsy. *)
Definition not_string (v : js string) : bool :=
  match v with
  | val s => if s is EmptyString then true else false
  | null | undefined => true
  end.

(** [!v] for an object, an array or a member of a union of non-empty
    string literals: only [null] and [undefined] are falsy. *)
Definition not_object {A : Type} (v : js A) : bool :=
  match v with
  | val _ => false
  | null | undefined => true
  end.

(** [arr[i]] for a numeric index: [undefined] outside [0 .. length-1]. *)
Definition at_index {A : Type} (arr : list A) (i : Z) : js A :=
  if (i <? 0)%Z then undefined
  else match arr !! Z.to_nat i with
       | Some a => val a
       | None => undefined
       end.

(** [obj[key]] for an object literal used as a table. *)
Definition at_key {A : Type} (obj : gmap string A) (key : string) : js A :=
  match obj !! key with
  | Some a => val a
  | None => undefined
  end.

(** The conversion of an operand of arithmetic to a number: [null] is 0
    and [undefined] is NaN, which the model writes [None]. *)
Definition to_number (v : js Q) : option Q :=
  match v with
  | val q => Some q
  | null => Some 0%Q
  | undefined => None
  end.

(** [x >= t]: false when an operand is NaN. *)
Definition ge_number (x : Q) (t : js Q) : bool :=
  match to_number t with
  | Some t => Qle_bool t x
  | None => false
  end.

(** [Math.round]: the nearest integer, a tie going to the larger one,
    which is [floor (x + 1/2)]. *)
Definition Math_round (x : Q) : Z := Qfloor (x + (1 # 2))%Q.

(** [Math.floor]. *)
Definition Math_floor (x : Q) : Z := Qfloor x.

(** *** Strings *)

Definition code_in (codes : list nat) (c : ascii) : bool :=
  bool_decide (nat_of_ascii c ∈ codes).

(** White space and line terminators, the characters [trim] removes:
    TAB, LF, VT, FF, CR, SPACE and NBSP among one-byte code units. *)
Definition is_white_space : ascii -> bool :=
  code_in [9; 10; 11; 12; 13; 32; 160]%nat.

Fixpoint strip_start (p : ascii -> bool) (s : string) : string :=
  match s with
  | EmptyString => EmptyString
  | String c s' => if p c then strip_start p s' else s
  end.

Fixpoint strip_end (p : ascii -> bool) (s : string) : string :=
  match s with
  | EmptyString => EmptyString
  | String c s' =>
      match strip_end p s' with
      | EmptyString => if p c then EmptyString else String c EmptyString
      | t => String c t
      end
  end.

(** [s.trim()]. *)
Definition trim (s : string) : string :=
  strip_end is_white_space (strip_start is_white_space s).

(** [s.includes(sub)]. *)
Definition includes (s sub : string) : bool :=
  if String.index 0 sub s is Some _ then true else false.

Fixpoint remove_chars (p : ascii -> bool) (s : string) : string :=
  match s with
  | EmptyString => EmptyString
  | String c s' => if p c then remove_chars p s' else String c (remove_chars p s')
  end.

End JS.

Import JS.

(** ** The URL constructor

    [new URL(input)] with no base runs the basic URL parser of the URL
    Standard and raises a TypeError when the parser returns failure.  The
    model writes out the parser up to the end of the scheme and the
    states that need no host (path and opaque path; they, the query and
    the fragment states never fail).  What the parser does from the
    authority and file states on (credentials, host, port) is the
    parameter [parse_authority]: given the scheme and the input after
    its colon it returns the host of the URL, or [None] for failure. *)

Module URL.

Record url : Type := { scheme : string; host : option string }.

Definition is_c0_control_or_space (c : ascii) : bool :=
  (nat_of_ascii c <=? 32)%nat.

Definition is_ascii_tab_or_newline : ascii -> bool :=
  code_in [9; 10; 13]%nat.

Definition is_ascii_upper_alpha (c : ascii) : bool :=
  (65 <=? nat_of_ascii c)%nat && (nat_of_ascii c <=? 90)%nat.

Definition is_ascii_lower_alpha (c : ascii) : bool :=
  (97 <=? nat_of_ascii c)%nat && (nat_of_ascii c <=? 122)%nat.

Definition is_ascii_alpha (c : ascii) : bool :=
  is_ascii_upper_alpha c || is_ascii_lower_alpha c.

Definition is_ascii_digit (c : ascii) : bool :=
  (48 <=? nat_of_ascii c)%nat && (nat_of_ascii c <=? 57)%nat.

Definition is_ascii_alphanumeric (c : ascii) : bool :=
  is_ascii_digit c || is_ascii_alpha c.

Definition ascii_lowercase (c : ascii) : ascii :=
  if is_ascii_upper_alpha c then ascii_of_nat (nat_of_ascii c + 32) else c.

(** Leading and trailing C0 control or space are removed, then every
    ASCII tab or newline. *)
Definition preprocess (input : string) : string :=
  remove_chars is_ascii_tab_or_newline
    (strip_end is_c0_control_or_space
       (strip_start is_c0_control_or_space input)).

(** Scheme state: an ASCII alphanumeric, [+] (43), [-] (45) or [.] (46)
    extends the scheme, in lower case; [:] (58) ends it.  The result is
    the scheme and the input after its colon, or [None] when the parser
    falls back to the no scheme state. *)
Fixpoint scheme_state (buffer : string) (input : string)
  : option (string * string) :=
  match input with
  | EmptyString => None
  | String c rest =>
      if is_ascii_alphanumeric c || code_in [43; 45; 46]%nat c
      then scheme_state (buffer +:+ String (ascii_lowercase c) EmptyString) rest
      else if code_in [58]%nat c then Some (buffer, rest)
      else None
  end.

(** Scheme start state: a scheme starts with an ASCII letter. *)
Definition scheme_start_state (input : string) : option (string * string) :=
  match input with
  | String c rest =>
      if is_ascii_alpha c
      then scheme_state (String (ascii_lowercase c) EmptyString) rest
      else None
  | EmptyString => None
  end.

Definition is_special (scheme : string) : bool :=
  bool_decide (scheme ∈ ["ftp"; "file"; "http"; "https"; "ws"; "wss"]).

Definition starts_with (s pre : string) : bool := String.prefix pre s.

Section Parser.

Variable parse_authority : string -> string -> option string.

(** The basic URL parser with a null base.  Without a scheme the no
    scheme state returns failure.  After the scheme, a special scheme
    leads to the file or the special authority states and [//] to the
    authority state; otherwise the rest is a path or an opaque path and
    the URL has a null host. *)
Definition basic_URL_parser (input : string) : option url :=
  match scheme_start_state (preprocess input) with
  | None => None
  | Some (sch, rest) =>
      if is_special sch || starts_with rest "//"
      then h ← parse_authority sch rest; Some {| scheme := sch; host := Some h |}
      else Some {| scheme := sch; host := None |}
  end.

(** [new URL(input)]. *)
Definition URL_new (input : string) : completion url :=
  match basic_URL_parser input with
  | Some u => normal u
  | None => throw TypeError
  end.

End Parser.

End URL.

(** ** Field validators (validator and resource-validator tests) *)

Module Validators.

Inductive ResourceType : Type := article | video | book | website | other.
Inductive Credibility : Type := high | medium | low.
Inductive ActivityStatus : Type := not_started | in_progress | completed.

(** [s.trim().length] for a receiver [s]. *)
Definition trim_length (s : js string) : completion nat :=
  str ← receiver s; normal (String.length (trim str)).

Definition isValidBigIdea (bigIdea : js string) : completion bool :=
  if not_string bigIdea then normal false
  else n ← trim_length bigIdea; normal (10 <=? n)%nat.

Definition isValidEssentialQuestion (question : js string) : completion bool :=
  if not_string question then normal false
  else
    str ← receiver question;
    let trimmed := trim str in
    normal ((10 <=? String.length trimmed)%nat && includes trimmed "?").

Definition isValidChallenge (challenge : js string) : completion bool :=
  if not_string challenge then normal false
  else n ← trim_length challenge; normal (15 <=? n)%nat.

Definition isEngagePhaseComplete (bigIdea essentialQuestion challenge : js string)
  : completion bool :=
  a ← isValidBigIdea bigIdea;
  if a : bool then
    b ← isValidEssentialQuestion essentialQuestion;
    if b : bool then isValidChallenge challenge else normal false
  else normal false.

(** [Partial<Resource>] and [Partial<Activity>]: every field may be
    absent. *)
Module Resource.
Record t : Type :=
  { title : js string; url : js string;
    type : js ResourceType; credibility : js Credibility }.
End Resource.

Module Activity.
Record t : Type :=
  { title : js string; description : js string; status : js ActivityStatus }.
End Activity.

Section WithURL.

Variable parse_authority : string -> string -> option string.

Definition isValidURL (url : js string) : completion bool :=
  blank ← or_else (normal (not_string url))
                  (n ← trim_length url; normal (n =? 0)%nat);
  if blank : bool then normal false
  else
    try_catch
      (_ ← URL.URL_new parse_authority (to_string url); normal true)
      (normal false).

Definition isValidResource (resource : js Resource.t) : completion bool :=
  bad_title ←
    or_else (r ← receiver resource; normal (not_string (Resource.title r)))
            (r ← receiver resource; n ← trim_length (Resource.title r);
             normal (n <? 3)%nat);
  if bad_title : bool then normal false
  else
    bad_url ←
      or_else (r ← receiver resource; normal (not_string (Resource.url r)))
              (r ← receiver resource; ok ← isValidURL (Resource.url r);
               normal (negb ok));
    if bad_url : bool then normal false
    else
      r ← receiver resource;
      if not_object (Resource.type r) then normal false
      else
        r ← receiver resource;
        if not_object (Resource.credibility r) then normal false
        else normal true.

End WithURL.

Definition isValidActivity (activity : js Activity.t) : completion bool :=
  bad_title ←
    or_else (a ← receiver activity; normal (not_string (Activity.title a)))
            (a ← receiver activity; n ← trim_length (Activity.title a);
             normal (n <? 3)%nat);
  if bad_title : bool then normal false
  else
    bad_description ←
      or_else (a ← receiver activity; normal (not_string (Activity.description a)))
              (a ← receiver activity; n ← trim_length (Activity.description a);
               normal (n <? 10)%nat);
    if bad_description : bool then normal false
    else
      a ← receiver activity;
      if not_object (Activity.status a) then normal false
      else normal true.

End Validators.

(** ** Gamification: levels and experience points (gamification tests) *)

Module Gamification.

Open Scope Q_scope.

Definition XP_PER_LEVEL : list Q :=
  [ 0;     (* level 1 *)
    100;   (* level 2 *)
    250;   (* level 3 *)
    500;   (* level 4 *)
    1000   (* level 5 *) ].

(** The loop [for (i = length - 1; i >= 0; i--)] of [calculateUserLevel];
    [n] is [i + 1], the number of indices still to visit, and the value at
    [n = 0] is the [return 1] after the loop. *)
Fixpoint level_loop (n : nat) (totalXP : Q) : Z :=
  match n with
  | O => 1%Z
  | S i =>
      if ge_number totalXP (at_index XP_PER_LEVEL (Z.of_nat i))
      then (Z.of_nat i + 1)%Z
      else level_loop i totalXP
  end.

Definition calculateUserLevel (totalXP : Q) : Z :=
  level_loop (length XP_PER_LEVEL) totalXP.

Definition xpToNextLevel (totalXP : Q) : option Q :=
  let currentLevel := calculateUserLevel totalXP in
  if (5 <=? currentLevel)%Z then Some 0
  else
    nextLevelXP ← to_number (at_index XP_PER_LEVEL currentLevel);
    Some (nextLevelXP - totalXP).

(** The divisor [xpNeededForLevel] is the distance between two
    consecutive thresholds and is never zero. *)
Definition levelProgressPercentage (totalXP : Q) : option Z :=
  let currentLevel := calculateUserLevel totalXP in
  if (5 <=? currentLevel)%Z then Some 100%Z
  else
    currentLevelXP ← to_number (at_index XP_PER_LEVEL (currentLevel - 1));
    nextLevelXP ← to_number (at_index XP_PER_LEVEL currentLevel);
    let xpInCurrentLevel := totalXP - currentLevelXP in
    let xpNeededForLevel := nextLevelXP - currentLevelXP in
    Some (Math_round ((xpInCurrentLevel / xpNeededForLevel) * 100)).

End Gamification.

(** ** Nudges (nudge tests) *)

Module Nudges.

Inductive CBLPhase : Type := engage | investigate | act.

Definition NUDGES_DATABASE : gmap string (list string) :=
  list_to_map
    [ ("big_idea",
       [ "Pense em um tema amplo que conecta diferentes áreas do conhecimento";
         "Qual conceito fundamental você quer explorar?";
         "Considere questões relevantes para sua comunidade" ]);
      ("essential_question",
       [ "Formule uma pergunta aberta que não tem resposta única";
         "A pergunta deve provocar pensamento crítico";
         "Evite perguntas que possam ser respondidas com sim ou não" ]);
      ("challenge",
       [ "Descreva uma ação concreta que os alunos devem realizar";
         "O desafio deve ser específico e mensurável";
         "Conecte o desafio com situações reais" ]);
      ("guiding_questions",
       [ "Decomponha o problema em perguntas menores";
         "Cada pergunta deve levar a uma investigação específica";
         "Garanta que as perguntas sejam pesquisáveis" ]);
      ("resources",
       [ "Busque fontes acadêmicas e confiáveis";
         "Diversifique os tipos de recursos (artigos, vídeos, livros)";
         "Avalie criticamente a credibilidade de cada fonte" ]);
      ("solution",
       [ "Descreva uma solução viável e criativa";
         "Considere recursos disponíveis e restrições";
         "Pense em como a solução impacta os stakeholders" ]);
      ("implementation",
       [ "Divida a implementação em etapas claras";
         "Defina responsáveis e prazos realistas";
         "Considere riscos e planos de contingência" ]) ].

(** [random] is the number that the call of [Math.random()] returns; the
    language guarantees [0 <= random < 1]. *)
Definition getRandomNudge (random : Q) (category : string) : js string :=
  let nudges := at_key NUDGES_DATABASE category in
  match nudges with
  | val l =>
      if (length l =? 0)%nat then null
      else
        let randomIndex :=
          Math_floor (random * inject_Z (Z.of_nat (length l))) in
        at_index l randomIndex
  | null | undefined => null
  end.

(** [NUDGES_DATABASE[category] || []]: an array, even an empty one, is
    truthy. *)
Definition getNudgesForCategory (category : string) : js (list string) :=
  let nudges := at_key NUDGES_DATABASE category in
  if not_object nudges then val [] else nudges.

End Nudges.

(** ** Project progress (project-progress tests) *)

Module Progress.

Inductive ProjectPhase : Type := engage | investigate | act.

Record ProjectProgress : Type :=
  { phase : ProjectPhase;
    engageComplete : bool;
    investigateComplete : bool;
    actComplete : bool }.

Definition calculateProjectProgress (project : ProjectProgress) : Z :=
  let completedPhases := 0%Z in
  let completedPhases :=
    if engageComplete project then (completedPhases + 1)%Z else completedPhases in
  let completedPhases :=
    if investigateComplete project then (completedPhases + 1)%Z else completedPhases in
  let completedPhases :=
    if actComplete project then (completedPhases + 1)%Z else completedPhases in
  Math_round ((inject_Z completedPhases / 3) * 100)%Q.

Definition countCompletedPhases (project : ProjectProgress) : Z :=
  let count := 0%Z in
  let count := if engageComplete project then (count + 1)%Z else count in
  let count := if investigateComplete project then (count + 1)%Z else count in
  let count := if actComplete project then (count + 1)%Z else count in
  count.

End Progress.

(** ** Badges (gamification tests) *)

Module Badges.

Record Badge : Type := { id : string; name : string; xp : Q }.

(** [badges.reduce((total, badge) => total + badge.xp, 0)]. *)
Definition calculateTotalXP (badges : list Badge) : Q :=
  fold_left (fun total badge => (total + xp badge)%Q) badges 0%Q.

Definition hasCompletedAllPhases
  (engageComplete investigateComplete actComplete : bool) : bool :=
  engageComplete && investigateComplete && actComplete.

End Badges.

(** ** Categories of a phase (nudge tests) *)

Module Categories.

(** [arr.includes(x)] for an array of strings. *)
Definition array_includes (arr : list string) (x : string) : bool :=
  bool_decide (x ∈ arr).

(** Each of the two functions builds its own [phaseCategories] table. *)
Definition isCategoryValidForPhase (phase : Nudges.CBLPhase) (category : string)
  : bool :=
  let phaseCategories (p : Nudges.CBLPhase) : list string :=
    match p with
    | Nudges.engage => ["big_idea"; "essential_question"; "challenge"]
    | Nudges.investigate => ["guiding_questions"; "resources"]
    | Nudges.act => ["solution"; "implementation"]
    end in
  array_includes (phaseCategories phase) category.

(** [NUDGES_DATABASE[category]?.length || 0]: a missing list and a
    length of zero both give 0. *)
Definition countNudgesForCategory (category : string) : Z :=
  match at_key Nudges.NUDGES_DATABASE category with
  | val l =>
      let n := Z.of_nat (length l) in
      if (n =? 0)%Z then 0%Z else n
  | null | undefined => 0%Z
  end.

Definition getAvailableCategories (phase : Nudges.CBLPhase) : list string :=
  let phaseCategories (p : Nudges.CBLPhase) : list string :=
    match p with
    | Nudges.engage => ["big_idea"; "essential_question"; "challenge"]
    | Nudges.investigate => ["guiding_questions"; "resources"]
    | Nudges.act => ["solution"; "implementation"]
    end in
  phaseCategories phase.

End Categories.

(** ** Phase sequence (project-progress tests) *)

Module Phases.

#[global] Instance ProjectPhase_eq_dec : EqDecision Progress.ProjectPhase.
Proof. solve_decision. Defined.

Definition getNextPhase
  (currentPhase : Progress.ProjectPhase) (currentPhaseComplete : bool)
  : js Progress.ProjectPhase :=
  if negb currentPhaseComplete then null
  else if bool_decide (currentPhase = Progress.engage) then val Progress.investigate
  else if bool_decide (currentPhase = Progress.investigate) then val Progress.act
  else null.

Definition isProjectComplete (project : Progress.ProjectProgress) : bool :=
  Progress.engageComplete project &&
  Progress.investigateComplete project &&
  Progress.actComplete project.

(** The position of a phase in the sequence engage, investigate, act,
    used to state where [getNextPhase] leads. *)
Definition phase_position (ph : Progress.ProjectPhase) : Z :=
  match ph with
  | Progress.engage => 0
  | Progress.investigate => 1
  | Progress.act => 2
  end.

End Phases.

(** ** Collections of resources and activities (resource-validator tests) *)

Module Inventory.

#[global] Instance Credibility_eq_dec : EqDecision Validators.Credibility.
Proof. solve_decision. Defined.

#[global] Instance ActivityStatus_eq_dec : EqDecision Validators.ActivityStatus.
Proof. solve_decision. Defined.

Module Resource.
Record t : Type :=
  { title : string; url : string;
    type : Validators.ResourceType; credibility : Validators.Credibility }.
End Resource.

Module Activity.
Record t : Type :=
  { title : string; description : string; status : Validators.ActivityStatus }.
End Activity.

Definition countResourcesByCredibility
  (resources : list Resource.t) (credibility : Validators.Credibility) : Z :=
  Z.of_nat (length
    (List.filter (fun r => bool_decide (Resource.credibility r = credibility))
       resources)).

Definition countActivitiesByStatus
  (activities : list Activity.t) (status : Validators.ActivityStatus) : Z :=
  Z.of_nat (length
    (List.filter (fun a => bool_decide (Activity.status a = status)) activities)).

Definition calculateCompletionRate (activities : list Activity.t) : Z :=
  if (Z.of_nat (length activities) =? 0)%Z then 0%Z
  else
    let completed := countActivitiesByStatus activities Validators.completed in
    Math_round
      ((inject_Z completed / inject_Z (Z.of_nat (length activities))) * 100)%Q.

Definition hasHighCredibilityResources (resources : list Resource.t) : bool :=
  existsb (fun r => bool_decide (Resource.credibility r = Validators.high))
    resources.

End Inventory.

Import URL Validators Gamification Nudges Progress.

(** * Properties *)

(** ** The unit tests of the repository, replayed on the model *)

Section Replay.

Open Scope Q_scope.

Example calculateUserLevel_tests :
  calculateUserLevel 0 = 1%Z /\ calculateUserLevel 50 = 1%Z /\
  calculateUserLevel 99 = 1%Z /\ calculateUserLevel 100 = 2%Z /\
  calculateUserLevel 249 = 2%Z /\ calculateUserLevel 250 = 3%Z /\
  calculateUserLevel 500 = 4%Z /\ calculateUserLevel 750 = 4%Z /\
  calculateUserLevel 1000 = 5%Z /\ calculateUserLevel 2000 = 5%Z.
Proof. vm_compute. repeat split. Qed.

Example xpToNextLevel_tests :
  xpToNextLevel 0 = Some 100 /\ xpToNextLevel 50 = Some 50 /\
  xpToNextLevel 100 = Some 150 /\ xpToNextLevel 250 = Some 250 /\
  xpToNextLevel 1000 = Some 0 /\ xpToNextLevel 2000 = Some 0.
Proof. vm_compute. repeat split. Qed.

Example levelProgressPercentage_tests :
  levelProgressPercentage 0 = Some 0%Z /\
  levelProgressPercentage 100 = Some 0%Z /\
  levelProgressPercentage 250 = Some 0%Z /\
  levelProgressPercentage 50 = Some 50%Z /\
  levelProgressPercentage 175 = Some 50%Z /\
  levelProgressPercentage 5000 = Some 100%Z.
Proof. vm_compute. repeat split. Qed.

(** Just below a threshold the rounded percentage is already 100. *)
Example levelProgressPercentage_near_threshold :
  levelProgressPercentage 249 = Some 99%Z /\
  levelProgressPercentage 499 = Some 100%Z /\
  levelProgressPercentage 998 = Some 100%Z /\
  levelProgressPercentage 999 = Some 100%Z.
Proof. vm_compute. repeat split. Qed.

(** A tie rounds up, also below zero. *)
Example Math_round_ties :
  Math_round (1 # 2) = 1%Z /\ Math_round (5 # 2) = 3%Z /\
  Math_round (- (1 # 2)) = 0%Z /\ Math_round (- (5 # 2)) = (-2)%Z.
Proof. vm_compute. repeat split. Qed.

Example string_validator_tests :
  isValidBigIdea (val "") = normal false /\
  isValidBigIdea (val "Curta") = normal false /\
  isValidBigIdea (val "12345") = normal false /\
  isValidBigIdea (val "Sustentabilidade ambiental nas escolas") = normal true /\
  isValidEssentialQuestion (val "") = normal false /\
  isValidEssentialQuestion (val "Why?") = normal false /\
  isValidEssentialQuestion (val "How can we reduce waste in schools?") = normal true /\
  isValidChallenge (val "") = normal false /\
  isValidChallenge (val "Muito curto") = normal false /\
  isValidChallenge (val "Desenvolver um plano de reciclagem na escola") = normal true.
Proof. vm_compute. repeat split. Qed.

(** The strings that the tests expect to be rejected have no scheme; the
    accepted ones have a special scheme, so that their fate is the
    authority parser's. *)
Example isValidURL_tests (pa : string -> string -> option string) :
  isValidURL pa (val "") = normal false /\
  isValidURL pa (val "not a url") = normal false /\
  isValidURL pa (val "www.example") = normal false /\
  isValidURL pa (val "https://example.com") =
    normal (if pa "https" "//example.com" is Some _ then true else false) /\
  isValidURL pa (val "http://example.com/path") =
    normal (if pa "http" "//example.com/path" is Some _ then true else false).
Proof.
  repeat split; vm_compute;
    match goal with
    | |- context [pa ?a ?b] => destruct (pa a b); reflexivity
    | _ => reflexivity
    end.
Qed.

Example record_validator_tests (pa : string -> string -> option string) :
  isValidResource pa
    (val {| Resource.title := val "AB"; Resource.url := undefined;
            Resource.type := undefined; Resource.credibility := undefined |})
    = normal false /\
  isValidResource pa
    (val {| Resource.title := val "Titulo valido"; Resource.url := val "invalid url";
            Resource.type := undefined; Resource.credibility := undefined |})
    = normal false /\
  isValidActivity
    (val {| Activity.title := val "AB"; Activity.description := undefined;
            Activity.status := undefined |})
    = normal false /\
  isValidActivity
    (val {| Activity.title := val "Pesquisa de campo";
            Activity.description := val "Realizar entrevistas com alunos";
            Activity.status := val not_started |})
    = normal true.
Proof. vm_compute. repeat split. Qed.

Example nudge_tests :
  getRandomNudge (1 # 2) "invalid_category" = null /\
  getNudgesForCategory "invalid" = val [] /\
  getRandomNudge 0 "challenge" =
    val "Descreva uma ação concreta que os alunos devem realizar" /\
  getRandomNudge (1 # 2) "resources" =
    val "Diversifique os tipos de recursos (artigos, vídeos, livros)" /\
  getRandomNudge (99 # 100) "solution" =
    val "Pense em como a solução impacta os stakeholders".
Proof. vm_compute. repeat split. Qed.

End Replay.

(** ** Arithmetic helpers *)

Section Rounding.

Open Scope Q_scope.

Lemma Qle_bool_false (a b : Q) : Qle_bool a b = false -> b < a.
Proof.
  intros H. apply Qnot_le_lt. intros Hle.
  apply Qle_bool_iff in Hle. congruence.
Qed.

(** [Math_round x] is the integer [r] with [r - 1/2 <= x < r + 1/2]. *)
Lemma Math_round_bounds (x : Q) :
  inject_Z (Math_round x) - (1 # 2) <= x /\ x < inject_Z (Math_round x) + (1 # 2).
Proof.
  unfold Math_round.
  pose proof (Qfloor_le (x + (1 # 2))) as Hlo.
  pose proof (Qlt_floor (x + (1 # 2))) as Hhi.
  rewrite inject_Z_plus in Hhi. change (inject_Z 1) with 1 in Hhi.
  split; lra.
Qed.

Lemma Math_round_unique (x : Q) (r : Z) :
  inject_Z r - (1 # 2) <= x -> x < inject_Z r + (1 # 2) -> Math_round x = r.
Proof.
  intros Hlo Hhi. destruct (Math_round_bounds x) as [Glo Ghi].
  assert (Hlt1 : inject_Z (Math_round x) < inject_Z (r + 1)).
  { rewrite inject_Z_plus. change (inject_Z 1) with 1. lra. }
  assert (Hlt2 : inject_Z r < inject_Z (Math_round x + 1)).
  { rewrite inject_Z_plus. change (inject_Z 1) with 1. lra. }
  rewrite <- Zlt_Qlt in Hlt1, Hlt2. lia.
Qed.

(** The percentage of a half-open interval that a point inside it has
    covered lies in [0, 100). *)
Lemma percentage_range (x lo hi : Q) :
  lo <= x -> x < hi -> 0 <= (x - lo) / (hi - lo) * 100 < 100.
Proof.
  intros Hlo Hhi.
  assert (Hd : 0 < hi - lo) by lra.
  assert (H0 : 0 <= (x - lo) / (hi - lo)).
  { apply Qle_shift_div_l; [exact Hd | lra]. }
  assert (H1 : (x - lo) / (hi - lo) < 1).
  { apply Qlt_shift_div_r; [exact Hd | lra]. }
  split; lra.
Qed.

Lemma Math_round_percentage (q : Q) :
  0 <= q < 100 ->
  (0 <= Math_round q <= 100)%Z /\ (Math_round q = 100%Z <-> 199 # 2 <= q).
Proof.
  intros [Hq0 Hq1]. destruct (Math_round_bounds q) as [Hlo Hhi].
  assert (Hge : inject_Z (-1) < inject_Z (Math_round q)).
  { change (inject_Z (-1)) with (-1). lra. }
  assert (Hle : inject_Z (Math_round q) < inject_Z 101).
  { change (inject_Z 101) with 101. lra. }
  rewrite <- Zlt_Qlt in Hge, Hle.
  split; [lia | split].
  - intros E. rewrite E in Hlo. change (inject_Z 100) with 100 in Hlo. lra.
  - intros Hq. apply Math_round_unique; change (inject_Z 100) with 100; lra.
Qed.

End Rounding.

(** ** Levels *)

Section Levels.

Open Scope Q_scope.

Lemma at_index_val {A : Type} (arr : list A) (i : Z) (a : A) :
  at_index arr i = val a <-> (0 <= i)%Z /\ arr !! Z.to_nat i = Some a.
Proof.
  unfold at_index. destruct (Z.ltb_spec i 0) as [Hneg | Hpos].
  - split; [discriminate | lia].
  - destruct (arr !! Z.to_nat i) as [b |].
    + split.
      * intros [= ->]. auto.
      * intros [_ [= ->]]. reflexivity.
    + split; [discriminate | intros [_ ?]; discriminate].
Qed.

(** The threshold of the 1-based level [i], when there is one. *)
Lemma threshold_cases (i : Z) (t : Q) :
  at_index XP_PER_LEVEL (i - 1) = val t ->
  (i = 1%Z /\ t = 0) \/ (i = 2%Z /\ t = 100) \/ (i = 3%Z /\ t = 250) \/
  (i = 4%Z /\ t = 500) \/ (i = 5%Z /\ t = 1000).
Proof.
  intros H. apply at_index_val in H as [Hpos Hl].
  pose proof (lookup_lt_Some _ _ _ Hl) as Hlen. simpl in Hlen.
  assert (Hi : i = 1%Z \/ i = 2%Z \/ i = 3%Z \/ i = 4%Z \/ i = 5%Z) by lia.
  destruct Hi as [-> | [-> | [-> | [-> | ->]]]];
    simpl in Hl; injection Hl as <-; tauto.
Qed.

(** The level as a function of the interval [totalXP] lies in. *)
Lemma level_cases (totalXP : Q) :
  (totalXP < 100 /\ calculateUserLevel totalXP = 1%Z) \/
  (100 <= totalXP < 250 /\ calculateUserLevel totalXP = 2%Z) \/
  (250 <= totalXP < 500 /\ calculateUserLevel totalXP = 3%Z) \/
  (500 <= totalXP < 1000 /\ calculateUserLevel totalXP = 4%Z) \/
  (1000 <= totalXP /\ calculateUserLevel totalXP = 5%Z).
Proof.
  unfold calculateUserLevel. simpl. unfold ge_number. simpl.
  destruct (Qle_bool 1000 totalXP) eqn:E5;
    [apply Qle_bool_iff in E5; tauto | apply Qle_bool_false in E5].
  destruct (Qle_bool 500 totalXP) eqn:E4;
    [apply Qle_bool_iff in E4; tauto | apply Qle_bool_false in E4].
  destruct (Qle_bool 250 totalXP) eqn:E3;
    [apply Qle_bool_iff in E3; tauto | apply Qle_bool_false in E3].
  destruct (Qle_bool 100 totalXP) eqn:E2;
    [apply Qle_bool_iff in E2; tauto | apply Qle_bool_false in E2].
  destruct (Qle_bool 0 totalXP); tauto.
Qed.

End Levels.

(** Splits the goal by the level of [x], leaving its interval as [Hx] and
    rewriting the level. *)
Ltac by_level x :=
  let Hx := fresh "Hx" in
  let El := fresh "El" in
  destruct (level_cases x) as [[Hx El] | [[Hx El] | [[Hx El] | [[Hx El] | [Hx El]]]]];
  rewrite ?El in *.

Section LevelTheorems.

Open Scope Q_scope.

(** C1: [calculateUserLevel] returns a level between 1 and 5, returns 1
    for zero or negative XP, and its result is the highest 1-based index
    [i] with [totalXP >= XP_PER_LEVEL[i-1]]: no index that meets the
    threshold test exceeds it, and it meets the test itself whenever some
    index does. *)
Theorem calculateUserLevel_highest (totalXP : Q) :
  (1 <= calculateUserLevel totalXP <= 5)%Z /\
  (totalXP <= 0 -> calculateUserLevel totalXP = 1%Z) /\
  (forall (i : Z) (t : Q),
      at_index XP_PER_LEVEL (i - 1) = val t -> t <= totalXP ->
      (i <= calculateUserLevel totalXP)%Z) /\
  ((exists (i : Z) (t : Q),
       at_index XP_PER_LEVEL (i - 1) = val t /\ t <= totalXP) ->
   exists t : Q,
     at_index XP_PER_LEVEL (calculateUserLevel totalXP - 1) = val t /\
     t <= totalXP).
Proof.
  repeat split.
  - by_level totalXP; lia.
  - by_level totalXP; lia.
  - intros Hneg. by_level totalXP; first [reflexivity | lra].
  - intros i t Hi Ht.
    destruct (threshold_cases i t Hi) as [[-> ->] | [[-> ->] | [[-> ->] | [[-> ->] | [-> ->]]]]];
      by_level totalXP; first [lia | lra].
  - intros (i & t & Hi & Ht).
    assert (H0 : 0 <= totalXP).
    { destruct (threshold_cases i t Hi) as [[-> ->] | [[-> ->] | [[-> ->] | [[-> ->] | [-> ->]]]]]; lra. }
    by_level totalXP; eexists; (split; [reflexivity | lra]).
Qed.

(** C6: [calculateUserLevel] is monotonic non-decreasing. *)
Theorem calculateUserLevel_monotonic (x y : Q) :
  x <= y -> (calculateUserLevel x <= calculateUserLevel y)%Z.
Proof.
  intros Hxy. by_level x; by_level y; first [lia | lra].
Qed.

Lemma calculateUserLevel_monotonic_witness :
  99 <= 100 /\ (calculateUserLevel 99 <= calculateUserLevel 100)%Z.
Proof.
  split; [lra | apply (calculateUserLevel_monotonic 99 100); lra].
Defined.

(** C5: at the maximum level [xpToNextLevel] is 0; below it, it is the
    threshold of the next level, [XP_PER_LEVEL[level]], minus [totalXP].
    In particular [xpToNextLevel(0) = 100] and [xpToNextLevel(1000) = 0]. *)
Theorem xpToNextLevel_spec (totalXP : Q) :
  ((5 <= calculateUserLevel totalXP)%Z -> xpToNextLevel totalXP = Some 0) /\
  ((calculateUserLevel totalXP < 5)%Z ->
   exists nextLevelXP : Q,
     at_index XP_PER_LEVEL (calculateUserLevel totalXP) = val nextLevelXP /\
     xpToNextLevel totalXP = Some (nextLevelXP - totalXP)) /\
  xpToNextLevel 0 = Some 100 /\
  xpToNextLevel 1000 = Some 0.
Proof.
  repeat split.
  - unfold xpToNextLevel. by_level totalXP; intros Hmax; first [lia | reflexivity].
  - unfold xpToNextLevel. by_level totalXP; intros Hlt;
      first [lia | eexists; split; reflexivity].
Qed.



(** Below the maximum level the percentage is the rounded quotient of
    the two distances to the floor of the level. *)
Lemma levelProgressPercentage_below (totalXP : Q) (level : Z) (cur next : Q) :
  calculateUserLevel totalXP = level -> (level < 5)%Z ->
  at_index XP_PER_LEVEL (level - 1) = val cur ->
  at_index XP_PER_LEVEL level = val next ->
  levelProgressPercentage totalXP =
    Some (Math_round ((totalXP - cur) / (next - cur) * 100)).
Proof.
  intros El Hlt Hcur Hnext. unfold levelProgressPercentage.
  rewrite El. destruct (Z.leb_spec 5 level) as [Hge | _]; [lia |].
  rewrite Hcur, Hnext. reflexivity.
Qed.


(** C10, as stated, fails at 499 XP: the percentage is 100 at level 3. *)
Lemma levelProgressPercentage_full_below_max :
  ~ (0 <= 499 ->
     exists p : Z,
       levelProgressPercentage 499 = Some p /\
       (0 <= p <= 100)%Z /\
       (p = 100%Z -> calculateUserLevel 499 = 5%Z)).
Proof.
  intros H. destruct H as (p & Hp & _ & Himp); [lra |].
  vm_compute in Hp. injection Hp as <-.
  specialize (Himp eq_refl). vm_compute in Himp. discriminate.
Qed.

(** C10, amended: for [totalXP >= 0] the percentage is between 0 and 100,
    and it is 100 exactly when the level is 5 or the quotient before
    rounding is at least 99.5. *)
Theorem levelProgressPercentage_range (totalXP : Q) :
  0 <= totalXP ->
  exists p : Z,
    levelProgressPercentage totalXP = Some p /\
    (0 <= p <= 100)%Z /\
    (p = 100%Z <->
     calculateUserLevel totalXP = 5%Z \/
     exists currentLevelFloor nextLevelFloor : Q,
       at_index XP_PER_LEVEL (calculateUserLevel totalXP - 1) = val currentLevelFloor /\
       at_index XP_PER_LEVEL (calculateUserLevel totalXP) = val nextLevelFloor /\
       199 # 2 <=
         (totalXP - currentLevelFloor) / (nextLevelFloor - currentLevelFloor) * 100).
Proof.
  intros H0.
  assert (Hbelow : forall (level : Z) (cur next : Q),
             calculateUserLevel totalXP = level -> (level < 5)%Z ->
             at_index XP_PER_LEVEL (level - 1) = val cur ->
             at_index XP_PER_LEVEL level = val next ->
             cur <= totalXP -> totalXP < next ->
             exists p : Z,
               levelProgressPercentage totalXP = Some p /\
               (0 <= p <= 100)%Z /\
               (p = 100%Z <->
                level = 5%Z \/
                exists c n : Q,
                  at_index XP_PER_LEVEL (level - 1) = val c /\
                  at_index XP_PER_LEVEL level = val n /\
                  199 # 2 <= (totalXP - c) / (n - c) * 100)).
  { intros level cur next El Hlt Hcur Hnext Hlo Hhi.
    eexists. split; [exact (levelProgressPercentage_below _ _ _ _ El Hlt Hcur Hnext) |].
    destruct (Math_round_percentage _ (percentage_range _ _ _ Hlo Hhi)) as [Hr Hiff].
    split; [exact Hr |]. rewrite Hiff. split.
    - intros Hq. right. exists cur, next. auto.
    - intros [E | (c & n & Hc & Hn & Hq)]; [lia |].
      rewrite Hcur in Hc. rewrite Hnext in Hn.
      injection Hc as <-. injection Hn as <-. exact Hq. }
  destruct (level_cases totalXP)
    as [[Hx El] | [[Hx El] | [[Hx El] | [[Hx El] | [Hx El]]]]].
  - rewrite El. apply (Hbelow 1%Z 0 100 El); [lia | reflexivity | reflexivity | lra | lra].
  - rewrite El. apply (Hbelow 2%Z 100 250 El); [lia | reflexivity | reflexivity | lra | lra].
  - rewrite El. apply (Hbelow 3%Z 250 500 El); [lia | reflexivity | reflexivity | lra | lra].
  - rewrite El. apply (Hbelow 4%Z 500 1000 El); [lia | reflexivity | reflexivity | lra | lra].
  - exists 100%Z. split; [| split; [lia | tauto]].
    unfold levelProgressPercentage. rewrite El. reflexivity.
Qed.

Lemma levelProgressPercentage_range_witness :
  0 <= 499 /\
  exists p : Z,
    levelProgressPercentage 499 = Some p /\
    (0 <= p <= 100)%Z /\
    (p = 100%Z <->
     calculateUserLevel 499 = 5%Z \/
     exists currentLevelFloor nextLevelFloor : Q,
       at_index XP_PER_LEVEL (calculateUserLevel 499 - 1) = val currentLevelFloor /\
       at_index XP_PER_LEVEL (calculateUserLevel 499) = val nextLevelFloor /\
       199 # 2 <=
         (499 - currentLevelFloor) / (nextLevelFloor - currentLevelFloor) * 100).
Proof.
  split; [lra | apply (levelProgressPercentage_range 499); lra].
Defined.

End LevelTheorems.

(** ** Project progress *)

Section ProgressTheorems.

Open Scope Q_scope.

(** C7: the progress is [round(countCompletedPhases / 3 * 100)], where
    the count is the number of true flags among the three; it is 0, 33,
    67 and 100 for zero, one, two and three completed phases. *)
Theorem calculateProjectProgress_spec (project : ProjectProgress) :
  calculateProjectProgress project =
    Math_round (inject_Z (countCompletedPhases project) / 3 * 100) /\
  countCompletedPhases project =
    Z.of_nat (length (List.filter id
      [engageComplete project; investigateComplete project; actComplete project])) /\
  (countCompletedPhases project = 0%Z -> calculateProjectProgress project = 0%Z) /\
  (countCompletedPhases project = 1%Z -> calculateProjectProgress project = 33%Z) /\
  (countCompletedPhases project = 2%Z -> calculateProjectProgress project = 67%Z) /\
  (countCompletedPhases project = 3%Z -> calculateProjectProgress project = 100%Z).
Proof.
  destruct project as [ph [] [] []];
    repeat split; intros Hc; vm_compute in Hc |- *;
    first [reflexivity | discriminate].
Qed.

End ProgressTheorems.

(** ** Nudges *)

Section NudgeTheorems.

Open Scope Q_scope.



End NudgeTheorems.

(** ** Validators *)




Section ValidatorTheorems.

Variable parse_authority : string -> string -> option string.

(** [isValidURL] on a string, as one boolean expression. *)
Lemma isValidURL_val (url : string) :
  isValidURL parse_authority (val url) =
    normal (negb (String.length (trim url) =? 0)%nat &&
            bool_decide (is_Some (basic_URL_parser parse_authority url))).
Proof.
  unfold isValidURL, or_else, trim_length, URL_new, try_catch.
  destruct url as [| c url]; [reflexivity |].
  cbn -[trim String.length basic_URL_parser].
  destruct (String.length (trim (String c url)) =? 0)%nat; [reflexivity |].
  destruct (basic_URL_parser parse_authority (String c url)) as [u |]; reflexivity.
Qed.



Lemma isValidURL_total (url : js string) :
  exists b : bool, isValidURL parse_authority url = normal b.
Proof.
  destruct url as [| | url]; [eexists; reflexivity .. |].
  rewrite isValidURL_val. eexists; reflexivity.
Qed.

Lemma not_string_false (v : js string) :
  not_string v = false -> exists s : string, v = val s.
Proof. destruct v; [discriminate .. | eauto]. Qed.

Lemma isValidResource_total (r : Resource.t) :
  exists b : bool, isValidResource parse_authority (val r) = normal b.
Proof.
  destruct r as [t u ty c]. unfold isValidResource, or_else, trim_length.
  cbn -[trim String.length isValidURL not_string].
  destruct (not_string t) eqn:Et; [eexists; reflexivity |].
  destruct (not_string_false _ Et) as [ts ->].
  cbn -[trim String.length isValidURL not_string].
  destruct (String.length (trim ts) <=? 2)%nat; [eexists; reflexivity |].
  destruct (not_string u) eqn:Eu; [eexists; reflexivity |].
  destruct (isValidURL_total u) as [b ->].
  cbn -[trim String.length isValidURL not_string].
  destruct b; [| eexists; reflexivity ].
  cbn. destruct ty, c; eexists; reflexivity.
Qed.

Lemma isValidActivity_total (a : Activity.t) :
  exists b : bool, isValidActivity (val a) = normal b.
Proof.
  destruct a as [t d st]. unfold isValidActivity, or_else, trim_length.
  cbn -[trim String.length not_string].
  destruct (not_string t) eqn:Et; [eexists; reflexivity |].
  destruct (not_string_false _ Et) as [ts ->].
  cbn -[trim String.length not_string].
  destruct (String.length (trim ts) <=? 2)%nat; [eexists; reflexivity |].
  destruct (not_string d) eqn:Ed; [eexists; reflexivity |].
  destruct (not_string_false _ Ed) as [ds ->].
  cbn -[trim String.length not_string].
  destruct (String.length (trim ds) <=? 9)%nat; [eexists; reflexivity |].
  destruct st; eexists; reflexivity.
Qed.


Lemma isValidResource_missing (r : Resource.t) :
  not_object (Resource.title r) || not_object (Resource.url r) ||
  not_object (Resource.type r) || not_object (Resource.credibility r) = true ->
  isValidResource parse_authority (val r) = normal false.
Proof.
  destruct r as [t u ty c]. unfold isValidResource, or_else, trim_length.
  cbn -[trim String.length isValidURL not_string].
  intros Hmiss.
  destruct (not_string t) eqn:Et; [reflexivity |].
  destruct (not_string_false _ Et) as [ts ->].
  cbn -[trim String.length isValidURL not_string].
  destruct (String.length (trim ts) <=? 2)%nat; [reflexivity |].
  destruct (not_string u) eqn:Eu; [reflexivity |].
  destruct (not_string_false _ Eu) as [us ->].
  destruct (isValidURL_total (val us)) as [b ->].
  cbn -[trim String.length isValidURL not_string].
  destruct b; [| reflexivity].
  destruct ty, c; first [reflexivity | discriminate Hmiss].
Qed.

Lemma isValidActivity_missing (a : Activity.t) :
  not_object (Activity.title a) || not_object (Activity.description a) ||
  not_object (Activity.status a) = true ->
  isValidActivity (val a) = normal false.
Proof.
  destruct a as [t d st]. unfold isValidActivity, or_else, trim_length.
  cbn -[trim String.length not_string].
  intros Hmiss.
  destruct (not_string t) eqn:Et; [reflexivity |].
  destruct (not_string_false _ Et) as [ts ->].
  cbn -[trim String.length not_string].
  destruct (String.length (trim ts) <=? 2)%nat; [reflexivity |].
  destruct (not_string d) eqn:Ed; [reflexivity |].
  destruct (not_string_false _ Ed) as [ds ->].
  cbn -[trim String.length not_string].
  destruct (String.length (trim ds) <=? 9)%nat; [reflexivity |].
  destruct st; first [reflexivity | discriminate Hmiss].
Qed.

(** C2, amended: the four validators of a string return false for
    [null] and for [undefined], and raise on no input.  The validators of
    a resource and of an activity raise on no record, and return false
    for a record in which a required field is [null] or [undefined];
    given [null] or [undefined] in place of the record, they raise a
    TypeError on reading its title. *)
Theorem validators_nullish :
  (isValidBigIdea null = normal false /\
   isValidBigIdea undefined = normal false /\
   isValidEssentialQuestion null = normal false /\
   isValidEssentialQuestion undefined = normal false /\
   isValidChallenge null = normal false /\
   isValidChallenge undefined = normal false /\
   isValidURL parse_authority null = normal false /\
   isValidURL parse_authority undefined = normal false) /\
  (forall v : js string,
      (exists b : bool, isValidBigIdea v = normal b) /\
      (exists b : bool, isValidEssentialQuestion v = normal b) /\
      (exists b : bool, isValidChallenge v = normal b) /\
      (exists b : bool, isValidURL parse_authority v = normal b)) /\
  (forall r : Resource.t,
      (exists b : bool, isValidResource parse_authority (val r) = normal b) /\
      (not_object (Resource.title r) || not_object (Resource.url r) ||
       not_object (Resource.type r) || not_object (Resource.credibility r) = true ->
       isValidResource parse_authority (val r) = normal false)) /\
  (forall a : Activity.t,
      (exists b : bool, isValidActivity (val a) = normal b) /\
      (not_object (Activity.title a) || not_object (Activity.description a) ||
       not_object (Activity.status a) = true ->
       isValidActivity (val a) = normal false)) /\
  (isValidResource parse_authority null = throw TypeError /\
   isValidResource parse_authority undefined = throw TypeError /\
   isValidActivity null = throw TypeError /\
   isValidActivity undefined = throw TypeError).
Proof.
  split; [repeat split |].
  split; [| split; [| split; [| repeat split]]].
  - intros v. split; [| split; [| split]].
    + destruct v as [| | [| c s]]; eexists; reflexivity.
    + destruct v as [| | [| c s]]; eexists; reflexivity.
    + destruct v as [| | [| c s]]; eexists; reflexivity.
    + apply isValidURL_total.
  - intros r. split; [apply isValidResource_total | apply isValidResource_missing].
  - intros a. split; [apply isValidActivity_total | apply isValidActivity_missing].
Qed.

(** C2, as stated, fails for [isValidResource(null)], which raises. *)
Lemma isValidResource_null_raises :
  ~ (exists pa : string -> string -> option string,
        isValidResource pa null = normal false).
Proof. intros [pa H]. discriminate H. Qed.

End ValidatorTheorems.

(** * Further properties of the code *)

(** ** Trimming *)

Section Trimming.

Variable p : ascii -> bool.

Lemma strip_start_head (s : string) :
  strip_start p s = EmptyString \/
  exists (c : ascii) (t : string), strip_start p s = String c t /\ p c = false.
Proof.
  induction s as [| c s IH]; simpl; [left; reflexivity |].
  destruct (p c) eqn:E; [exact IH | right; eauto].
Qed.

Lemma strip_end_head (c : ascii) (t : string) :
  p c = false -> exists t' : string, strip_end p (String c t) = String c t'.
Proof.
  intros E. simpl. destruct (strip_end p t); [rewrite E |]; eauto.
Qed.

Lemma strip_end_idempotent (s : string) :
  strip_end p (strip_end p s) = strip_end p s.
Proof.
  induction s as [| c s IH]; simpl; [reflexivity |].
  destruct (strip_end p s) as [| d r] eqn:E.
  - destruct (p c) eqn:Ec; simpl; [reflexivity | rewrite Ec; reflexivity].
  - change (strip_end p (String c (String d r)))
      with (match strip_end p (String d r) with
            | EmptyString => if p c then EmptyString else String c EmptyString
            | String a b => String c (String a b)
            end).
    rewrite IH. reflexivity.
Qed.

Lemma strip_start_length (s : string) :
  (String.length (strip_start p s) <= String.length s)%nat.
Proof.
  induction s as [| c s IH]; simpl; [lia |].
  destruct (p c); simpl; lia.
Qed.

Lemma strip_end_length (s : string) :
  (String.length (strip_end p s) <= String.length s)%nat.
Proof.
  induction s as [| c s IH]; simpl; [lia |].
  destruct (strip_end p s); [destruct (p c) |]; simpl in *; lia.
Qed.

End Trimming.

Lemma trim_idempotent (s : string) : trim (trim s) = trim s.
Proof.
  unfold trim.
  destruct (strip_start_head is_white_space s) as [E | (c & t & E & Hc)];
    rewrite E; [reflexivity |].
  destruct (strip_end_head is_white_space c t Hc) as [t' E'].
  rewrite E'. simpl strip_start. rewrite Hc. rewrite <- E'.
  apply strip_end_idempotent.
Qed.

Lemma trim_length_le (s : string) :
  (String.length (trim s) <= String.length s)%nat.
Proof.
  unfold trim.
  pose proof (strip_end_length is_white_space (strip_start is_white_space s)).
  pose proof (strip_start_length is_white_space s). lia.
Qed.

(** ** Validators of the Engage phase *)

Lemma normal_inj {A : Type} (a b : A) : normal a = normal b -> a = b.
Proof. intros H. injection H as H. exact H. Qed.

Lemma isValidBigIdea_val (s : string) :
  isValidBigIdea (val s) = normal (10 <=? String.length (trim s))%nat.
Proof. destruct s; reflexivity. Qed.

Lemma isValidEssentialQuestion_val (s : string) :
  isValidEssentialQuestion (val s) =
    normal ((10 <=? String.length (trim s))%nat && includes (trim s) "?").
Proof. destruct s; reflexivity. Qed.

Lemma isValidChallenge_val (s : string) :
  isValidChallenge (val s) = normal (15 <=? String.length (trim s))%nat.
Proof. destruct s; reflexivity. Qed.

(** X1: the three validators give the same verdict on a string and on
    the string already trimmed. *)
Theorem engage_validators_ignore_padding (s : string) :
  isValidBigIdea (val (trim s)) = isValidBigIdea (val s) /\
  isValidEssentialQuestion (val (trim s)) = isValidEssentialQuestion (val s) /\
  isValidChallenge (val (trim s)) = isValidChallenge (val s).
Proof.
  rewrite !isValidBigIdea_val, !isValidEssentialQuestion_val, !isValidChallenge_val.
  rewrite trim_idempotent. repeat split.
Qed.

(** X2: a text that passes as a challenge or as an essential question
    also passes as a big idea. *)
Theorem valid_challenge_or_question_is_valid_idea (v : js string) :
  isValidChallenge v = normal true \/ isValidEssentialQuestion v = normal true ->
  isValidBigIdea v = normal true.
Proof.
  destruct v as [| | s]; [intros [H | H]; discriminate H .. |].
  rewrite isValidBigIdea_val, isValidEssentialQuestion_val, isValidChallenge_val.
  intros [H | H]; apply normal_inj in H; f_equal.
  - apply Nat.leb_le in H. apply Nat.leb_le. lia.
  - apply andb_prop in H as [H _]. exact H.
Qed.

Lemma valid_challenge_or_question_is_valid_idea_witness :
  (isValidChallenge (val "Plant a school garden") = normal true \/
   isValidEssentialQuestion (val "Plant a school garden") = normal true) /\
  isValidBigIdea (val "Plant a school garden") = normal true.
Proof.
  split; [left; reflexivity |].
  apply (valid_challenge_or_question_is_valid_idea (val "Plant a school garden")).
  left; reflexivity.
Defined.

(** X3: a text that a validator accepts has at least the required number
    of code units before any trimming: 10 for a big idea and for an
    essential question, 15 for a challenge. *)
Theorem engage_validators_minimum_length (s : string) :
  (isValidBigIdea (val s) = normal true -> (10 <= String.length s)%nat) /\
  (isValidEssentialQuestion (val s) = normal true -> (10 <= String.length s)%nat) /\
  (isValidChallenge (val s) = normal true -> (15 <= String.length s)%nat).
Proof.
  rewrite isValidBigIdea_val, isValidEssentialQuestion_val, isValidChallenge_val.
  pose proof (trim_length_le s) as Hle.
  repeat split; intros H; apply normal_inj in H.
  - apply Nat.leb_le in H. lia.
  - apply andb_prop in H as [H _]. apply Nat.leb_le in H. lia.
  - apply Nat.leb_le in H. lia.
Qed.

Lemma engage_validator_total (v : js string) :
  (exists b : bool, isValidBigIdea v = normal b) /\
  (exists b : bool, isValidEssentialQuestion v = normal b) /\
  (exists b : bool, isValidChallenge v = normal b).
Proof.
  destruct v as [| | s]; [repeat split; eexists; reflexivity .. |].
  rewrite isValidBigIdea_val, isValidEssentialQuestion_val, isValidChallenge_val.
  repeat split; eexists; reflexivity.
Qed.

(** X4: [isEngagePhaseComplete] raises on no input, [null] and
    [undefined] included, and returns true exactly when the three
    validators all return true. *)
Theorem isEngagePhaseComplete_spec (bigIdea essentialQuestion challenge : js string) :
  exists b : bool,
    isEngagePhaseComplete bigIdea essentialQuestion challenge = normal b /\
    (b = true <->
     isValidBigIdea bigIdea = normal true /\
     isValidEssentialQuestion essentialQuestion = normal true /\
     isValidChallenge challenge = normal true).
Proof.
  unfold isEngagePhaseComplete.
  destruct (engage_validator_total bigIdea) as [[b1 ->] _].
  destruct (engage_validator_total essentialQuestion) as [_ [[b2 ->] _]].
  destruct (engage_validator_total challenge) as [_ [_ [b3 E3]]].
  destruct b1, b2; cbn; rewrite ?E3;
    eexists; (split; [reflexivity |]);
    split; try discriminate;
    try (intros (H1 & H2 & H3); discriminate).
  - intros ->. auto.
  - intros (_ & _ & [= ->]). reflexivity.
Qed.

(** ** Validators of resources and activities *)

Section RecordValidators.

Variable parse_authority : string -> string -> option string.

(** X5: [isValidResource] accepts a record exactly when its four fields
    are present, the trimmed title has at least 3 code units and
    [isValidURL] accepts the url. *)
Theorem isValidResource_true_iff (r : Validators.Resource.t) :
  isValidResource parse_authority (val r) = normal true <->
  exists (t u : string) (ty : ResourceType) (c : Credibility),
    r = {| Validators.Resource.title := val t;
           Validators.Resource.url := val u;
           Validators.Resource.type := val ty;
           Validators.Resource.credibility := val c |} /\
    (3 <= String.length (trim t))%nat /\
    isValidURL parse_authority (val u) = normal true.
Proof.
  destruct r as [t u ty c]. unfold isValidResource, or_else, trim_length.
  cbn -[trim String.length isValidURL not_string].
  split.
  - destruct (not_string t) eqn:Et; [discriminate |].
    destruct (not_string_false _ Et) as [ts ->].
    cbn -[trim String.length isValidURL not_string].
    destruct (Nat.leb_spec (String.length (trim ts)) 2) as [Hle | Hgt];
      [discriminate |].
    destruct (not_string u) eqn:Eu; [discriminate |].
    destruct (not_string_false _ Eu) as [us ->].
    destruct (isValidURL_total parse_authority (val us)) as [b Eb]. rewrite Eb.
    cbn -[trim String.length isValidURL not_string].
    destruct b; [| discriminate].
    destruct ty as [| | ty]; [discriminate .. |].
    destruct c as [| | c]; [discriminate .. |].
    intros _. exists ts, us, ty, c. split; [reflexivity | split; [lia | exact Eb]].
  - intros (ts & us & ty' & c' & E & Hlen & Hurl).
    injection E as -> -> -> ->.
    destruct ts as [| a ts]; [simpl in Hlen; lia |].
    cbn -[trim String.length isValidURL].
    destruct (Nat.leb_spec (String.length (trim (String a ts))) 2) as [Hle | _];
      [lia |].
    destruct us as [| a' us]; [discriminate Hurl |].
    cbn -[trim String.length isValidURL]. rewrite Hurl. reflexivity.
Qed.

End RecordValidators.

(** X6: [isValidActivity] accepts a record exactly when its three fields
    are present, the trimmed title has at least 3 code units and the
    trimmed description at least 10. *)
Theorem isValidActivity_true_iff (a : Validators.Activity.t) :
  isValidActivity (val a) = normal true <->
  exists (t d : string) (st : ActivityStatus),
    a = {| Validators.Activity.title := val t;
           Validators.Activity.description := val d;
           Validators.Activity.status := val st |} /\
    (3 <= String.length (trim t))%nat /\
    (10 <= String.length (trim d))%nat.
Proof.
  destruct a as [t d st]. unfold isValidActivity, or_else, trim_length.
  cbn -[trim String.length not_string].
  split.
  - destruct (not_string t) eqn:Et; [discriminate |].
    destruct (not_string_false _ Et) as [ts ->].
    cbn -[trim String.length not_string].
    destruct (Nat.leb_spec (String.length (trim ts)) 2) as [Hle | Hgt];
      [discriminate |].
    destruct (not_string d) eqn:Ed; [discriminate |].
    destruct (not_string_false _ Ed) as [ds ->].
    cbn -[trim String.length not_string].
    destruct (Nat.leb_spec (String.length (trim ds)) 9) as [Hle | Hgt'];
      [discriminate |].
    destruct st as [| | st]; [discriminate .. |].
    intros _. exists ts, ds, st. split; [reflexivity | lia].
  - intros (ts & ds & st' & E & Hlen & Hlen').
    injection E as -> -> ->.
    destruct ts as [| c ts]; [simpl in Hlen; lia |].
    cbn -[trim String.length].
    destruct (Nat.leb_spec (String.length (trim (String c ts))) 2) as [Hle | _];
      [lia |].
    destruct ds as [| c' ds]; [simpl in Hlen'; lia |].
    cbn -[trim String.length].
    destruct (Nat.leb_spec (String.length (trim (String c' ds))) 9) as [Hle | _];
      [lia | reflexivity].
Qed.

(** ** Badges and levels *)

Section BadgeTheorems.

Open Scope Q_scope.

Lemma calculateTotalXP_from (badges : list Badges.Badge) (acc : Q) :
  fold_left (fun total badge => total + Badges.xp badge) badges acc ==
  acc + Badges.calculateTotalXP badges.
Proof.
  unfold Badges.calculateTotalXP. revert acc.
  induction badges as [| b badges IH]; intros acc; simpl; [ring |].
  rewrite (IH (acc + Badges.xp b)), (IH (0 + Badges.xp b)). ring.
Qed.

Lemma calculateTotalXP_cons (b : Badges.Badge) (badges : list Badges.Badge) :
  Badges.calculateTotalXP (b :: badges) ==
  Badges.xp b + Badges.calculateTotalXP badges.
Proof.
  unfold Badges.calculateTotalXP at 1. simpl.
  rewrite calculateTotalXP_from. ring.
Qed.




(** X9: with badges of non-negative XP the total is non-negative, and
    one more such badge lowers neither the total nor the level. *)
Theorem badge_never_lowers_level (badges : list Badges.Badge) (b : Badges.Badge) :
  Forall (fun badge => 0 <= Badges.xp badge) badges ->
  0 <= Badges.xp b ->
  0 <= Badges.calculateTotalXP badges /\
  Badges.calculateTotalXP badges <= Badges.calculateTotalXP (badges ++ [b]) /\
  (calculateUserLevel (Badges.calculateTotalXP badges) <=
   calculateUserLevel (Badges.calculateTotalXP (badges ++ [b])))%Z.
Proof.
  intros Hall Hb.
  assert (H0 : 0 <= Badges.calculateTotalXP badges).
  { induction Hall as [| a l Ha _ IH]; [apply Qle_refl |].
    rewrite calculateTotalXP_cons. lra. }
  assert (Happ : Badges.calculateTotalXP (badges ++ [b]) ==
                 Badges.calculateTotalXP badges + Badges.xp b).
  { unfold Badges.calculateTotalXP at 1. rewrite fold_left_app.
    fold (Badges.calculateTotalXP badges). simpl. reflexivity. }
  split; [exact H0 | split; [lra |]].
  by_level (Badges.calculateTotalXP badges);
    by_level (Badges.calculateTotalXP (badges ++ [b])); first [lia | lra].
Qed.

Lemma badge_never_lowers_level_witness :
  Forall (fun badge => 0 <= Badges.xp badge)
    [ {| Badges.id := "1"; Badges.name := "Explorador"; Badges.xp := 50 |} ] /\
  0 <= Badges.xp {| Badges.id := "2"; Badges.name := "Pesquisador"; Badges.xp := 100 |} /\
  (calculateUserLevel (Badges.calculateTotalXP
     [ {| Badges.id := "1"; Badges.name := "Explorador"; Badges.xp := 50 |} ]) <=
   calculateUserLevel (Badges.calculateTotalXP
     ([ {| Badges.id := "1"; Badges.name := "Explorador"; Badges.xp := 50 |} ] ++
      [ {| Badges.id := "2"; Badges.name := "Pesquisador"; Badges.xp := 100 |} ])))%Z.
Proof.
  assert (H1 : Forall (fun badge => 0 <= Badges.xp badge)
    [ {| Badges.id := "1"; Badges.name := "Explorador"; Badges.xp := 50 |} ]).
  { constructor; [simpl; lra | constructor]. }
  assert (H2 : 0 <= Badges.xp
    {| Badges.id := "2"; Badges.name := "Pesquisador"; Badges.xp := 100 |}).
  { simpl; lra. }
  split; [exact H1 | split; [exact H2 |]].
  apply (badge_never_lowers_level _ _ H1 H2).
Defined.



Lemma percentage_monotonic (x y lo hi : Q) :
  lo < hi -> x <= y ->
  (x - lo) / (hi - lo) * 100 <= (y - lo) / (hi - lo) * 100.
Proof.
  intros Hd Hxy. unfold Qdiv.
  apply Qmult_le_compat_r; [| lra].
  apply Qmult_le_compat_r; [lra |].
  apply Qlt_le_weak, Qinv_lt_0_compat. lra.
Qed.

Lemma Math_round_monotonic (x y : Q) : x <= y -> (Math_round x <= Math_round y)%Z.
Proof. intros H. unfold Math_round. apply Qfloor_resp_le. lra. Qed.

(** X11: between two amounts of XP of the same level the percentage does
    not decrease. *)
Theorem levelProgressPercentage_monotonic_in_level (x y : Q) :
  x <= y -> calculateUserLevel x = calculateUserLevel y ->
  exists p q : Z,
    levelProgressPercentage x = Some p /\
    levelProgressPercentage y = Some q /\
    (p <= q)%Z.
Proof.
  intros Hxy Hl.
  assert (Hbelow : forall (level : Z) (cur next : Q),
             calculateUserLevel x = level -> (level < 5)%Z ->
             at_index XP_PER_LEVEL (level - 1) = val cur ->
             at_index XP_PER_LEVEL level = val next -> cur < next ->
             exists p q : Z,
               levelProgressPercentage x = Some p /\
               levelProgressPercentage y = Some q /\ (p <= q)%Z).
  { intros level cur next El Hlt Hcur Hnext Hd.
    assert (El' : calculateUserLevel y = level) by congruence.
    do 2 eexists.
    split; [exact (levelProgressPercentage_below _ _ _ _ El Hlt Hcur Hnext) |].
    split; [exact (levelProgressPercentage_below _ _ _ _ El' Hlt Hcur Hnext) |].
    apply Math_round_monotonic, percentage_monotonic; assumption. }
  destruct (level_cases x)
    as [[Hx El] | [[Hx El] | [[Hx El] | [[Hx El] | [Hx El]]]]].
  - apply (Hbelow 1%Z 0 100 El); [lia | reflexivity | reflexivity | lra].
  - apply (Hbelow 2%Z 100 250 El); [lia | reflexivity | reflexivity | lra].
  - apply (Hbelow 3%Z 250 500 El); [lia | reflexivity | reflexivity | lra].
  - apply (Hbelow 4%Z 500 1000 El); [lia | reflexivity | reflexivity | lra].
  - exists 100%Z, 100%Z. unfold levelProgressPercentage.
    rewrite <- Hl, El. repeat split. lia.
Qed.

Lemma levelProgressPercentage_monotonic_in_level_witness :
  120 <= 175 /\ calculateUserLevel 120 = calculateUserLevel 175 /\
  exists p q : Z,
    levelProgressPercentage 120 = Some p /\
    levelProgressPercentage 175 = Some q /\
    (p <= q)%Z.
Proof.
  split; [lra | split; [reflexivity |]].
  apply (levelProgressPercentage_monotonic_in_level 120 175); [lra | reflexivity].
Defined.

End BadgeTheorems.

(** ** Phases of a project *)

Section PhaseTheorems.

(** X12: [getNextPhase] returns [null] while the current phase is not
    complete and after the last phase; otherwise it returns the phase
    that follows the current one, never the current phase or an earlier
    one. *)
Theorem getNextPhase_advances
  (currentPhase : Progress.ProjectPhase) (currentPhaseComplete : bool) :
  (currentPhaseComplete = false ->
   Phases.getNextPhase currentPhase currentPhaseComplete = null) /\
  (Phases.getNextPhase currentPhase true = null <-> currentPhase = Progress.act) /\
  (forall next : Progress.ProjectPhase,
      Phases.getNextPhase currentPhase currentPhaseComplete = val next ->
      currentPhaseComplete = true /\
      Phases.phase_position next = (Phases.phase_position currentPhase + 1)%Z) /\
  Phases.getNextPhase currentPhase currentPhaseComplete <> undefined.
Proof.
  destruct currentPhase, currentPhaseComplete; vm_compute;
    repeat split; try discriminate; try reflexivity;
    intros; try discriminate;
    match goal with
    | H : val _ = val _ |- _ => injection H as <-; reflexivity
    end.
Qed.

(** X13: [isProjectComplete] and [hasCompletedAllPhases] agree, and a
    project is complete exactly when three phases are counted and
    exactly when the progress is 100. *)
Theorem project_complete_iff (project : Progress.ProjectProgress) :
  Phases.isProjectComplete project =
    Badges.hasCompletedAllPhases
      (Progress.engageComplete project)
      (Progress.investigateComplete project)
      (Progress.actComplete project) /\
  (Phases.isProjectComplete project = true <->
   countCompletedPhases project = 3%Z) /\
  (Phases.isProjectComplete project = true <->
   calculateProjectProgress project = 100%Z).
Proof.
  destruct project as [ph [] [] []]; vm_compute;
    repeat split; intros; try discriminate; reflexivity.
Qed.

(** X14: a project in which every phase completed before is still
    completed has at least the count and the progress it had before,
    whatever the [phase] fields are. *)
Theorem progress_monotonic (before after : Progress.ProjectProgress) :
  (Progress.engageComplete before = true -> Progress.engageComplete after = true) ->
  (Progress.investigateComplete before = true ->
   Progress.investigateComplete after = true) ->
  (Progress.actComplete before = true -> Progress.actComplete after = true) ->
  (countCompletedPhases before <= countCompletedPhases after)%Z /\
  (calculateProjectProgress before <= calculateProjectProgress after)%Z.
Proof.
  destruct before as [ph [] [] []], after as [ph' [] [] []]; simpl;
    intros He Hi Ha;
    try (specialize (He eq_refl); discriminate He);
    try (specialize (Hi eq_refl); discriminate Hi);
    try (specialize (Ha eq_refl); discriminate Ha);
    vm_compute; split; discriminate.
Qed.

Lemma progress_monotonic_witness :
  (calculateProjectProgress
     {| Progress.phase := Progress.investigate; Progress.engageComplete := true;
        Progress.investigateComplete := false; Progress.actComplete := false |} <=
   calculateProjectProgress
     {| Progress.phase := Progress.act; Progress.engageComplete := true;
        Progress.investigateComplete := true; Progress.actComplete := false |})%Z.
Proof.
  apply (progress_monotonic
    {| Progress.phase := Progress.investigate; Progress.engageComplete := true;
       Progress.investigateComplete := false; Progress.actComplete := false |}
    {| Progress.phase := Progress.act; Progress.engageComplete := true;
       Progress.investigateComplete := true; Progress.actComplete := false |});
    simpl; intros H; first [reflexivity | discriminate H].
Defined.

End PhaseTheorems.

(** ** Categories of nudges *)

Section CategoryTheorems.

Open Scope Q_scope.

(** The two functions build the same table of categories. *)
Lemma isCategoryValidForPhase_iff_available
  (phase : Nudges.CBLPhase) (category : string) :
  Categories.isCategoryValidForPhase phase category = true <->
  category ∈ Categories.getAvailableCategories phase.
Proof.
  unfold Categories.isCategoryValidForPhase, Categories.getAvailableCategories,
    Categories.array_includes.
  apply bool_decide_eq_true.
Qed.

Lemma database_keys (category : string) :
  is_Some (NUDGES_DATABASE !! category) ->
  category ∈ ["big_idea"; "essential_question"; "challenge";
              "guiding_questions"; "resources"; "solution"; "implementation"].
Proof.
  intros [l Hl]. unfold NUDGES_DATABASE in Hl.
  apply elem_of_list_to_map_2 in Hl.
  repeat (apply elem_of_cons in Hl as [[= -> _] | Hl];
          [compute_done |]).
  apply elem_of_nil in Hl. contradiction.
Qed.

(** X15: [isCategoryValidForPhase] accepts exactly the categories that
    [getAvailableCategories] lists, and these are the categories of the
    nudge database: a category is valid for some phase exactly when the
    database has nudges for it, it is then valid for one phase only, it
    has three nudges and [getRandomNudge] never returns [null] for it. *)
Theorem categories_match_database (category : string) :
  (forall phase : Nudges.CBLPhase,
      Categories.isCategoryValidForPhase phase category = true <->
      category ∈ Categories.getAvailableCategories phase) /\
  ((exists phase : Nudges.CBLPhase,
       Categories.isCategoryValidForPhase phase category = true) <->
   is_Some (NUDGES_DATABASE !! category)) /\
  (forall phase phase' : Nudges.CBLPhase,
      Categories.isCategoryValidForPhase phase category = true ->
      Categories.isCategoryValidForPhase phase' category = true ->
      phase = phase') /\
  (forall (phase : Nudges.CBLPhase) (random : Q),
      Categories.isCategoryValidForPhase phase category = true ->
      Categories.countNudgesForCategory category = 3%Z /\
      getRandomNudge random category <> null).
Proof.
  assert (Hvalid : forall phase : Nudges.CBLPhase,
             Categories.isCategoryValidForPhase phase category = true ->
             category ∈ ["big_idea"; "essential_question"; "challenge";
                         "guiding_questions"; "resources"; "solution";
                         "implementation"]).
  { intros phase H. apply isCategoryValidForPhase_iff_available in H.
    destruct phase; simpl in H;
      repeat (apply elem_of_cons in H as [-> | H]; [compute_done |]);
      apply elem_of_nil in H; contradiction. }
  split; [intros phase; apply isCategoryValidForPhase_iff_available |].
  split; [split | split].
  - intros [phase H]. specialize (Hvalid phase H).
    repeat (apply elem_of_cons in Hvalid as [-> | Hvalid];
            [vm_compute; eauto |]).
    apply elem_of_nil in Hvalid. contradiction.
  - intros H. apply database_keys in H.
    repeat (apply elem_of_cons in H as [-> | H];
            [first [ exists Nudges.engage; reflexivity
                   | exists Nudges.investigate; reflexivity
                   | exists Nudges.act; reflexivity ] |]).
    apply elem_of_nil in H. contradiction.
  - intros phase phase' H H'.
    apply isCategoryValidForPhase_iff_available in H, H'.
    destruct phase, phase'; try reflexivity; simpl in H, H'; exfalso;
      repeat (apply elem_of_cons in H as [-> | H];
              [revert H'; compute_done |]);
      apply elem_of_nil in H; contradiction.
  - intros phase random H. specialize (Hvalid phase H).
    assert (Hl : exists l : list string,
               NUDGES_DATABASE !! category = Some l /\ length l = 3%nat).
    { repeat (apply elem_of_cons in Hvalid as [-> | Hvalid];
              [eexists; split; vm_compute; reflexivity |]).
      apply elem_of_nil in Hvalid. contradiction. }
    destruct Hl as (l & Hl & Hlen).
    unfold Categories.countNudgesForCategory, getRandomNudge, at_key.
    rewrite Hl. rewrite Hlen. split; [reflexivity |].
    change (3 =? 0)%nat with false. cbv iota.
    unfold at_index. destruct (_ <? 0)%Z; [discriminate |].
    destruct (l !! _); discriminate.
Qed.


End CategoryTheorems.

(** ** Collections of resources and activities *)

Section InventoryTheorems.

Open Scope Z_scope.

Lemma count_filter_le {A : Type} (f : A -> bool) (l : list A) :
  (length (List.filter f l) <= length l)%nat.
Proof.
  induction l as [| a l IH]; simpl; [lia |].
  destruct (f a); simpl; lia.
Qed.

(** X17: every resource is counted under exactly one level of
    credibility: the three counts add up to the number of resources. *)
Theorem countResourcesByCredibility_partition (resources : list Inventory.Resource.t) :
  Inventory.countResourcesByCredibility resources high +
  Inventory.countResourcesByCredibility resources medium +
  Inventory.countResourcesByCredibility resources low =
  Z.of_nat (length resources).
Proof.
  unfold Inventory.countResourcesByCredibility.
  induction resources as [| r resources IH]; [reflexivity |].
  simpl. destruct (Inventory.Resource.credibility r); simpl in *; lia.
Qed.

(** X18: every activity is counted under exactly one status: the three
    counts add up to the number of activities. *)
Theorem countActivitiesByStatus_partition (activities : list Inventory.Activity.t) :
  Inventory.countActivitiesByStatus activities not_started +
  Inventory.countActivitiesByStatus activities in_progress +
  Inventory.countActivitiesByStatus activities completed =
  Z.of_nat (length activities).
Proof.
  unfold Inventory.countActivitiesByStatus.
  induction activities as [| a activities IH]; [reflexivity |].
  simpl. destruct (Inventory.Activity.status a); simpl in *; lia.
Qed.

(** X19: the counts of two lists put together are the sums of their
    counts, for resources and for activities. *)
Theorem counts_app
  (rs rs' : list Inventory.Resource.t) (c : Credibility)
  (acts acts' : list Inventory.Activity.t) (st : ActivityStatus) :
  Inventory.countResourcesByCredibility (rs ++ rs') c =
    Inventory.countResourcesByCredibility rs c +
    Inventory.countResourcesByCredibility rs' c /\
  Inventory.countActivitiesByStatus (acts ++ acts') st =
    Inventory.countActivitiesByStatus acts st +
    Inventory.countActivitiesByStatus acts' st.
Proof.
  unfold Inventory.countResourcesByCredibility, Inventory.countActivitiesByStatus.
  rewrite !List.filter_app, !length_app. lia.
Qed.

(** X20: [hasHighCredibilityResources] is true exactly when the count of
    resources of high credibility is positive, that is when some
    resource of the list has high credibility. *)
Theorem hasHighCredibilityResources_iff (resources : list Inventory.Resource.t) :
  (Inventory.hasHighCredibilityResources resources = true <->
   0 < Inventory.countResourcesByCredibility resources high) /\
  (Inventory.hasHighCredibilityResources resources = true <->
   exists r : Inventory.Resource.t,
     r ∈ resources /\ Inventory.Resource.credibility r = high).
Proof.
  unfold Inventory.hasHighCredibilityResources, Inventory.countResourcesByCredibility.
  split.
  - induction resources as [| r resources IH]; simpl; [split; [discriminate | lia] |].
    destruct (bool_decide (Inventory.Resource.credibility r = high)); simpl.
    + split; [lia | reflexivity].
    + exact IH.
  - rewrite existsb_exists. split.
    + intros (r & Hin & Hr). exists r. split.
      * apply list_elem_of_In. exact Hin.
      * apply bool_decide_eq_true in Hr. exact Hr.
    + intros (r & Hin & Hr). exists r. split.
      * apply list_elem_of_In. exact Hin.
      * apply bool_decide_eq_true. exact Hr.
Qed.

End InventoryTheorems.

Section CompletionRate.

Open Scope Q_scope.

Lemma Math_round_within (q : Q) (lo hi : Z) :
  inject_Z lo <= q -> q <= inject_Z hi -> (lo <= Math_round q <= hi)%Z.
Proof.
  intros Hlo Hhi. destruct (Math_round_bounds q) as [Glo Ghi].
  assert (H1 : inject_Z lo < inject_Z (Math_round q + 1)).
  { rewrite inject_Z_plus. change (inject_Z 1) with 1. lra. }
  assert (H2 : inject_Z (Math_round q) < inject_Z (hi + 1)).
  { rewrite inject_Z_plus. change (inject_Z 1) with 1. lra. }
  rewrite <- Zlt_Qlt in H1, H2. lia.
Qed.

(** The quotient [completed / total * 100] against a bound [k / 100]. *)
Lemma rate_bounds (c n : Z) :
  (0 <= c <= n)%Z -> (0 < n)%Z ->
  0 <= inject_Z c / inject_Z n * 100 <= 100 /\
  (199 # 2 <= inject_Z c / inject_Z n * 100 <-> (200 * (n - c) <= n)%Z).
Proof.
  intros [Hc0 Hcn] Hn.
  assert (HN : 0 < inject_Z n).
  { change 0 with (inject_Z 0). rewrite <- Zlt_Qlt. exact Hn. }
  assert (HC0 : 0 <= inject_Z c).
  { change 0 with (inject_Z 0). rewrite <- Zle_Qle. exact Hc0. }
  assert (HCN : inject_Z c <= inject_Z n).
  { rewrite <- Zle_Qle. exact Hcn. }
  assert (H0 : 0 <= inject_Z c / inject_Z n).
  { apply Qle_shift_div_l; [exact HN | lra]. }
  assert (H1 : inject_Z c / inject_Z n <= 1).
  { apply Qle_shift_div_r; [exact HN | lra]. }
  split; [split; lra |].
  assert (Hz : (200 * (n - c) <= n)%Z <-> 199 * inject_Z n <= 200 * inject_Z c).
  { assert (Hlin : (200 * (n - c) <= n)%Z <-> (199 * n <= 200 * c)%Z) by lia.
    rewrite Hlin, Zle_Qle, !inject_Z_mult.
    change (inject_Z 200) with 200. change (inject_Z 199) with 199.
    reflexivity. }
  rewrite Hz. split.
  - intros Hq.
    assert (Hmul : (199 # 200) * inject_Z n <= inject_Z c / inject_Z n * inject_Z n).
    { apply Qmult_le_compat_r; lra. }
    assert (Hfield : inject_Z c / inject_Z n * inject_Z n == inject_Z c).
    { field. lra. }
    lra.
  - intros Hle.
    assert (Hq : 199 # 200 <= inject_Z c / inject_Z n).
    { apply Qle_shift_div_l; [exact HN | lra]. }
    lra.
Qed.

(** X21: the completion rate of no activity is 0; the rate is always
    between 0 and 100; it is 100 when every activity of a non-empty list
    is completed and 0 when none is. *)
Theorem calculateCompletionRate_range (activities : list Inventory.Activity.t) :
  Inventory.calculateCompletionRate [] = 0%Z /\
  (0 <= Inventory.calculateCompletionRate activities <= 100)%Z /\
  (activities <> [] ->
   Inventory.countActivitiesByStatus activities completed =
     Z.of_nat (length activities) ->
   Inventory.calculateCompletionRate activities = 100%Z) /\
  (Inventory.countActivitiesByStatus activities completed = 0%Z ->
   Inventory.calculateCompletionRate activities = 0%Z).
Proof.
  split; [reflexivity |].
  unfold Inventory.calculateCompletionRate.
  destruct (Z.eqb_spec (Z.of_nat (length activities)) 0) as [E | Hne].
  - split; [lia | split; [| reflexivity]].
    intros Hnil _. destruct activities; [congruence | simpl in E; lia].
  - assert (Hc : (0 <= Inventory.countActivitiesByStatus activities completed
                    <= Z.of_nat (length activities))%Z).
    { unfold Inventory.countActivitiesByStatus.
      pose proof (count_filter_le
        (fun a => bool_decide (Inventory.Activity.status a = completed)) activities).
      lia. }
    assert (Hn : (0 < Z.of_nat (length activities))%Z) by lia.
    destruct (rate_bounds _ _ Hc Hn) as [[Hq0 Hq1] Hiff].
    split; [| split].
    + apply Math_round_within; [exact Hq0 | exact Hq1].
    + intros _ Hall. apply Math_round_unique; change (inject_Z 100) with 100.
      * apply Qle_trans with (199 # 2); [lra |]. apply Hiff. lia.
      * lra.
    + intros Hnone. rewrite Hnone.
      assert (Hz : inject_Z 0 / inject_Z (Z.of_nat (length activities)) * 100 == 0).
      { unfold Qdiv. change (inject_Z 0) with 0. ring. }
      apply Math_round_unique; rewrite Hz; change (inject_Z 0) with 0; lra.
Qed.

(** X22: the completion rate is 100 exactly when the list is not empty
    and at most one activity in 200 is not completed; with fewer than 200
    activities a rate of 100 means that all are completed. *)
Theorem calculateCompletionRate_full (activities : list Inventory.Activity.t) :
  (Inventory.calculateCompletionRate activities = 100%Z <->
   activities <> [] /\
   (200 * (Z.of_nat (length activities) -
           Inventory.countActivitiesByStatus activities completed)
    <= Z.of_nat (length activities))%Z) /\
  ((length activities < 200)%nat ->
   Inventory.calculateCompletionRate activities = 100%Z ->
   Inventory.countActivitiesByStatus activities completed =
     Z.of_nat (length activities)).
Proof.
  assert (Hc : (0 <= Inventory.countActivitiesByStatus activities completed
                  <= Z.of_nat (length activities))%Z).
  { unfold Inventory.countActivitiesByStatus.
    pose proof (count_filter_le
      (fun a => bool_decide (Inventory.Activity.status a = completed)) activities).
    lia. }
  assert (Hiff : Inventory.calculateCompletionRate activities = 100%Z <->
                 activities <> [] /\
                 (200 * (Z.of_nat (length activities) -
                         Inventory.countActivitiesByStatus activities completed)
                  <= Z.of_nat (length activities))%Z).
  { unfold Inventory.calculateCompletionRate.
    destruct (Z.eqb_spec (Z.of_nat (length activities)) 0) as [E | Hne].
    - split; [discriminate |]. intros [Hnil _].
      destruct activities; [congruence | simpl in E; lia].
    - assert (Hn : (0 < Z.of_nat (length activities))%Z) by lia.
      destruct (rate_bounds _ _ Hc Hn) as [[Hq0 Hq1] Hq].
      rewrite <- Hq. split.
      + intros E. split; [intros ->; simpl in Hne; lia |].
        destruct (Math_round_bounds
          (inject_Z (Inventory.countActivitiesByStatus activities completed) /
           inject_Z (Z.of_nat (length activities)) * 100)) as [Hlo _].
        rewrite E in Hlo. change (inject_Z 100) with 100 in Hlo. lra.
      + intros [_ Hge]. apply Math_round_unique;
          change (inject_Z 100) with 100; lra. }
  split; [exact Hiff |].
  intros Hlen H100. apply Hiff in H100 as [_ Hle]. lia.
Qed.

End CompletionRate.
